(** * uuv_mission/dynamic.py: closed-loop depth control of a submarine

    A shallow embedding of [Submarine], [Control], [Mission], [Trajectory]
    and [ClosedLoop.simulate].  Python objects are records, method calls
    that mutate [self] are state transformers, and exceptions are an
    explicit outcome that leaves the mutations done so far in place. *)

From Stdlib Require Import QArith Qcanon PrimFloat Uint63 Lia.
From stdpp Require Import base list strings.

Set Default Proof Using "Type".

(** ** Arithmetic

    The source computes with Python numbers (ints, floats and numpy
    float64).  The model is parametric in the arithmetic: one carrier with
    the five operations the source uses and an injection of its decimal
    literals.  No algebraic law is assumed, so whatever is proved of the
    generic model holds with rounding as well as without.  Two instances
    are given below: exact rationals and IEEE binary64.  The ints of the
    source ([0], [1], and [pos_x], a sum of ones) are values of the same
    carrier, as they are once stored in a float64 array.  Division is
    total, as it is on numpy float64. *)

Class Arith := {
  num : Type;
  lit : Q -> num;
  num_add : num -> num -> num;
  num_sub : num -> num -> num;
  num_mul : num -> num -> num;
  num_div : num -> num -> num;
  num_opp : num -> num
}.

Declare Scope num_scope.
Delimit Scope num_scope with num.
Bind Scope num_scope with num.
Infix "+" := num_add : num_scope.
Infix "-" := num_sub : num_scope.
Infix "*" := num_mul : num_scope.
Infix "/" := num_div : num_scope.
Notation "- x" := (num_opp x) : num_scope.

(** The one law some statements need: subtracting the literal [0] is the
    identity (true of exact arithmetic, and of IEEE subtraction). *)
Class SubZero (A : Arith) : Prop :=
  sub_zero : forall x : num, (x - lit 0)%num = x.

(** ** Exceptions and stateful computations *)

Inductive exn : Type :=
  | ValueError (msg : string)
  | IndexError.

Inductive outcome (A : Type) : Type :=
  | Returned (a : A)
  | Raised (e : exn).
Arguments Returned {A} a.
Arguments Raised {A} e.

(** A computation over a mutable object of type [S]: it ends by returning
    or by raising, and in both cases leaves a state behind. *)
Definition Py (S A : Type) : Type := S -> outcome A * S.

Definition ret {S A} (a : A) : Py S A := fun s => (Returned a, s).

Definition raise {S A} (e : exn) : Py S A := fun s => (Raised e, s).

Definition bind {S A B} (m : Py S A) (k : A -> Py S B) : Py S B :=
  fun s =>
    match m s with
    | (Returned a, s') => k a s'
    | (Raised e, s') => (Raised e, s')
    end.

Notation "x <- m ;; k" := (bind m (fun x => k))
  (at level 100, m at next level, right associativity).
Notation "m ;;; k" := (bind m (fun _ => k))
  (at level 100, right associativity).

(** [seq[t]] and [seq[t] = x] for a non-negative index [t]: out of range
    raises [IndexError], as lists and numpy arrays do. *)
Definition getitem {S A} (l : list A) (t : nat) : Py S A :=
  match l !! t with
  | Some x => ret x
  | None => raise IndexError
  end.

Definition setitem {S A} (l : list A) (t : nat) (x : A) : Py S (list A) :=
  if (t <? length l)%nat then ret (<[t := x]> l) else raise IndexError.

(** [for t in ts: loc = body(t, loc)], with the loop's local variables
    threaded through [loc]. *)
Fixpoint for_each {S L} (ts : list nat) (body : nat -> L -> Py S L)
    (loc : L) : Py S L :=
  match ts with
  | [] => ret loc
  | t :: ts' => loc' <- body t loc ;; for_each ts' body loc'
  end.

(** [for t in range(T)] *)
Definition for_range {S L} (T : nat) (body : nat -> L -> Py S L)
    (loc : L) : Py S L :=
  for_each (seq 0 T) body loc.

Section Model.
Context {A : Arith}.
Local Open Scope num_scope.

(** ** class Submarine *)

Record Submarine : Type := {
  mass : num;
  drag : num;
  actuator_gain : num;
  dt : num;
  pos_x : num;
  pos_y : num;
  vel_x : num;
  vel_y : num
}.

(** Attribute assignments [self.f = v]. *)
Definition set_pos_x (self : Submarine) (v : num) : Submarine :=
  {| mass := mass self; drag := drag self;
     actuator_gain := actuator_gain self; dt := dt self;
     pos_x := v; pos_y := pos_y self;
     vel_x := vel_x self; vel_y := vel_y self |}.

Definition set_pos_y (self : Submarine) (v : num) : Submarine :=
  {| mass := mass self; drag := drag self;
     actuator_gain := actuator_gain self; dt := dt self;
     pos_x := pos_x self; pos_y := v;
     vel_x := vel_x self; vel_y := vel_y self |}.

Definition set_vel_x (self : Submarine) (v : num) : Submarine :=
  {| mass := mass self; drag := drag self;
     actuator_gain := actuator_gain self; dt := dt self;
     pos_x := pos_x self; pos_y := pos_y self;
     vel_x := v; vel_y := vel_y self |}.

Definition set_vel_y (self : Submarine) (v : num) : Submarine :=
  {| mass := mass self; drag := drag self;
     actuator_gain := actuator_gain self; dt := dt self;
     pos_x := pos_x self; pos_y := pos_y self;
     vel_x := vel_x self; vel_y := v |}.

(** [Submarine.__init__] *)
Definition Submarine_init : Submarine :=
  {| mass := lit 1; drag := lit (1 # 10); actuator_gain := lit 1;
     dt := lit 1;
     pos_x := lit 0; pos_y := lit 0; vel_x := lit 1; vel_y := lit 0 |}.

(** [Submarine.transition]: the two position updates come first and read
    the velocities as they are; [force_y] then reads [vel_y] again.
    [-self.drag * self.vel_y] is [(-self.drag) * self.vel_y]. *)
Definition transition (action disturbance : num) (self : Submarine)
    : Submarine :=
  let self := set_pos_x self (pos_x self + vel_x self * dt self) in
  let self := set_pos_y self (pos_y self + vel_y self * dt self) in
  let force_y :=
    (- drag self) * vel_y self
    + actuator_gain self * (action + disturbance) in
  let acc_y := force_y / mass self in
  set_vel_y self (vel_y self + acc_y * dt self).

Definition get_depth (self : Submarine) : num := pos_y self.

Definition get_position (self : Submarine) : num * num :=
  (pos_x self, pos_y self).

Definition reset_state (self : Submarine) : Submarine :=
  let self := set_pos_x self (lit 0) in
  let self := set_pos_y self (lit 0) in
  let self := set_vel_x self (lit 1) in
  set_vel_y self (lit 0).

(** ** class Trajectory (the plotting methods are not modelled) *)

Record Trajectory : Type := { position : list (num * num) }.

(** ** class Mission *)

Record Mission : Type := {
  reference : list num;
  cave_height : list num;
  cave_depth : list num
}.

(** The constructor the [@dataclass] decorator generates: three attribute
    assignments, no [__post_init__], no check of any kind. *)
Definition Mission_init (reference cave_height cave_depth : list num)
    : outcome Mission :=
  Returned {| reference := reference; cave_height := cave_height;
              cave_depth := cave_depth |}.

(** ** class Control *)

Record Control : Type := {
  Kp : num;
  Kd : num;
  previous_error : num;
  (** [current_error] does not exist before the first call of
      [controller]. *)
  current_error : option num
}.

(** [Control.__init__] *)
Definition Control_init : Control :=
  {| Kp := lit (15 # 100); Kd := lit (6 # 10); previous_error := lit 0;
     current_error := None |}.

Definition set_current_error (self : Control) (v : num) : Control :=
  {| Kp := Kp self; Kd := Kd self; previous_error := previous_error self;
     current_error := Some v |}.

Definition set_previous_error (self : Control) (v : num) : Control :=
  {| Kp := Kp self; Kd := Kd self; previous_error := v;
     current_error := current_error self |}.

(** [Control.controller]; [mission.reference[t]] is evaluated first and
    raises before anything is assigned. *)
Definition Control_controller (t : nat) (mission : Mission)
    (observation_t : num) : Py Control num :=
  r <- getitem (reference mission) t ;;
  fun self =>
    let current_error := r - observation_t in
    let self := set_current_error self current_error in
    let u_t :=
      Kp self * current_error
      + Kd self * (current_error - previous_error self) in
    let self := set_previous_error self current_error in
    (Returned u_t, self).

(** ** class ClosedLoop *)

Record ClosedLoop : Type := {
  plant : Submarine;
  controller : Control
}.

(** Calls on [self.plant] and [self.controller]. *)
Definition plant_do (f : Submarine -> Submarine) : Py ClosedLoop unit :=
  fun self =>
    (Returned tt, {| plant := f (plant self); controller := controller self |}).

Definition plant_get {B} (f : Submarine -> B) : Py ClosedLoop B :=
  fun self => (Returned (f (plant self)), self).

Definition controller_call {B} (m : Py Control B) : Py ClosedLoop B :=
  fun self =>
    let '(o, c) := m (controller self) in
    (o, {| plant := plant self; controller := c |}).

(** The message of the [ValueError] that [simulate] raises; the
    specification calls this error InsufficientDisturbanceLength. *)
Definition InsufficientDisturbanceLength : exn :=
  ValueError "Disturbances must be at least as long as mission duration".

(** The local arrays of [simulate]: [positions] and [actions]. *)
Definition locals : Type := list (num * num) * list num.

(** [np.zeros((T, 2))] and [np.zeros(T)] *)
Definition zeros (T : nat) : locals :=
  (replicate T (lit 0, lit 0), replicate T (lit 0)).

(** One iteration of the loop of [simulate]. *)
Definition simulate_step (mission : Mission) (disturbances : list num)
    (t : nat) (loc : locals) : Py ClosedLoop locals :=
  let '(positions, actions) := loc in
  p <- plant_get get_position ;;
  positions <- setitem positions t p ;;
  observation_t <- plant_get get_depth ;;
  u <- controller_call (Control_controller t mission observation_t) ;;
  actions <- setitem actions t u ;;
  a_t <- getitem actions t ;;
  d_t <- getitem disturbances t ;;
  plant_do (transition a_t d_t) ;;;
  ret (positions, actions).

(** The loop of [simulate] cut after [k] iterations. *)
Definition simulate_loop (mission : Mission) (disturbances : list num)
    (k : nat) : Py ClosedLoop locals :=
  for_range k (simulate_step mission disturbances)
    (zeros (length (reference mission))).

(** [ClosedLoop.simulate] *)
Definition simulate (mission : Mission) (disturbances : list num)
    : Py ClosedLoop Trajectory :=
  let T := length (reference mission) in
  if (length disturbances <? T)%nat then raise InsufficientDisturbanceLength
  else
    plant_do reset_state ;;;
    loc <- simulate_loop mission disturbances T ;;
    ret {| position := fst loc |}.

(** The closed loop as iteration [t] of a run finds it: the plant reset
    and [t] iterations executed. *)
Definition state_at (mission : Mission) (disturbances : list num)
    (self : ClosedLoop) (t : nat) : ClosedLoop :=
  snd ((plant_do reset_state ;;; simulate_loop mission disturbances t) self).

(** What [self.controller.controller] answers in iteration [t] of a run,
    called with the depth of the plant as that iteration finds it. *)
Definition action_at (mission : Mission) (disturbances : list num)
    (self : ClosedLoop) (t : nat) : outcome num :=
  let s := state_at mission disturbances self t in
  fst (Control_controller t mission (get_depth (plant s)) (controller s)).

(** The [actions] array after [k] iterations of a run. *)
Definition actions_at (mission : Mission) (disturbances : list num)
    (self : ClosedLoop) (k : nat) : outcome (list num) :=
  match
    fst ((plant_do reset_state ;;; simulate_loop mission disturbances k) self)
  with
  | Returned loc => Returned (snd loc)
  | Raised e => Raised e
  end.

(** One iteration of the loop as a function on the closed loop, for an
    index at which the reference holds [r] and the disturbances hold
    [d_t]: what [simulate_step] does to [self] when nothing raises (lemma
    [state_at_S]). *)
Definition advance (r d_t : num) (self : ClosedLoop) : ClosedLoop :=
  let e := r - get_depth (plant self) in
  let u := Kp (controller self) * e
           + Kd (controller self) * (e - previous_error (controller self)) in
  {| plant := transition u d_t (plant self);
     controller :=
       {| Kp := Kp (controller self); Kd := Kd (controller self);
          previous_error := e; current_error := Some e |} |}.

(** The parameters of the plant and the gains of the controller. *)
Definition parameters (self : ClosedLoop) : list num :=
  [mass (plant self); drag (plant self); actuator_gain (plant self);
   dt (plant self); Kp (controller self); Kd (controller self)].

(** [ClosedLoop.simulate_with_random_disturbances].  [normal] stands for
    [np.random.normal]: called with the mean, the scale and the number of
    samples, it returns the samples or raises.  The source passes its
    argument [variance] as the scale. *)
Definition simulate_with_random_disturbances
    (normal : num -> num -> nat -> outcome (list num))
    (mission : Mission) (variance : num) : Py ClosedLoop Trajectory :=
  fun self =>
    match normal (lit 0) variance (length (reference mission)) with
    | Returned disturbances => simulate mission disturbances self
    | Raised e => (Raised e, self)
    end.

(** A two-dimensional numpy array: its shape and its cells. *)
Record ndarray2 : Type := {
  nrows : nat;
  ncols : nat;
  cell : nat -> nat -> num
}.

(** [array[:, j]] for a non-negative [j]: the column, or [IndexError]
    when the array has no column [j]. *)
Definition column (array : ndarray2) (j : nat) : outcome (list num) :=
  if (j <? ncols array)%nat
  then Returned (map (fun i => cell array i j) (seq 0 (nrows array)))
  else Raised IndexError.

(** [Mission.from_csv] from the point where
    [pd.read_csv(file_name).to_numpy()] has returned [array]; reading the
    file is outside the model.  The three columns are taken in order, then
    the constructor is called. *)
Definition Mission_from_array (array : ndarray2) : outcome Mission :=
  match column array 0 with
  | Raised e => Raised e
  | Returned reference =>
      match column array 1 with
      | Raised e => Raised e
      | Returned cave_height =>
          match column array 2 with
          | Raised e => Raised e
          | Returned cave_depth =>
              Mission_init reference cave_height cave_depth
          end
      end
  end.

End Model.

(** ** Two arithmetics *)

(** Exact rational arithmetic, on canonical fractions. *)
Definition exact : Arith :=
  {| num := Qc; lit := Q2Qc;
     num_add := Qcplus; num_sub := Qcminus; num_mul := Qcmult;
     num_div := Qcdiv; num_opp := Qcopp |}.

(** IEEE binary64, the arithmetic of Python floats and numpy float64.  A
    literal is its numerator divided by its denominator, which rounds to
    the nearest float as the parser of the source does (for numerators and
    denominators below 2^53). *)
Definition float_of_Z (z : Z) : float :=
  match z with
  | Z0 => PrimFloat.of_uint63 0
  | Zpos p => PrimFloat.of_uint63 (Uint63.of_Z (Zpos p))
  | Zneg p => PrimFloat.opp (PrimFloat.of_uint63 (Uint63.of_Z (Zpos p)))
  end.

Definition float_lit (q : Q) : float :=
  PrimFloat.div (float_of_Z (Qnum q)) (float_of_Z (Zpos (Qden q))).

Definition binary64 : Arith :=
  {| num := float; lit := float_lit;
     num_add := PrimFloat.add; num_sub := PrimFloat.sub;
     num_mul := PrimFloat.mul; num_div := PrimFloat.div;
     num_opp := PrimFloat.opp |}.

(** The objects the script at the end of the source builds:
    [ClosedLoop(Submarine(), Control())]. *)
Definition fresh {A : Arith} : ClosedLoop :=
  {| plant := Submarine_init; controller := Control_init |}.

(** A mission that has only the reference filled in. *)
Definition mission_of {A : Arith} (ref : list Q) : Mission :=
  {| reference := map lit ref; cave_height := []; cave_depth := [] |}.

(** * Properties *)

Section Loop.
Context {S L : Type}.
Implicit Types (body : nat -> L -> Py S L) (ts : list nat).

Lemma for_each_app ts1 ts2 body loc s :
  for_each (ts1 ++ ts2) body loc s =
  match for_each ts1 body loc s with
  | (Returned loc', s') => for_each ts2 body loc' s'
  | (Raised e, s') => (Raised e, s')
  end.
Proof.
  revert loc s. induction ts1 as [|t ts1 IH]; intros loc s; simpl.
  - reflexivity.
  - unfold bind. destruct (body t loc s) as [[loc'|e] s']; [apply IH|reflexivity].
Qed.

Lemma for_range_S k body loc s :
  for_range (Datatypes.S k) body loc s =
  match for_range k body loc s with
  | (Returned loc', s') => body k loc' s'
  | (Raised e, s') => (Raised e, s')
  end.
Proof.
  unfold for_range. rewrite seq_S, for_each_app. simpl.
  destruct (for_each (seq 0 k) body loc s) as [[loc'|e] s']; [|reflexivity].
  unfold bind, ret. destruct (body k loc' s') as [[loc''|e] s'']; reflexivity.
Qed.

(** A property of the state that every iteration keeps, whether it returns
    or raises, is kept by the loop. *)
Lemma for_each_preserves (P : S -> Prop) body :
  (forall t loc s, P s -> P (snd (body t loc s))) ->
  forall ts loc s, P s -> P (snd (for_each ts body loc s)).
Proof.
  intros Hbody ts. induction ts as [|t ts IH]; intros loc s Hs; simpl.
  - exact Hs.
  - unfold bind. specialize (Hbody t loc s Hs).
    destruct (body t loc s) as [[loc'|e] s']; simpl in *; [apply IH|]; exact Hbody.
Qed.

(** Two bodies that agree on the indices of the loop give the same loop. *)
Lemma for_each_ext body1 body2 ts :
  (forall t, t ∈ ts -> forall loc s, body1 t loc s = body2 t loc s) ->
  forall loc s, for_each ts body1 loc s = for_each ts body2 loc s.
Proof.
  induction ts as [|t ts IH]; intros Hagree loc s; simpl.
  - reflexivity.
  - unfold bind. rewrite (Hagree t) by left.
    destruct (body2 t loc s) as [[loc'|e] s']; [|reflexivity].
    apply IH. intros t' Ht'. apply Hagree. right. exact Ht'.
Qed.

End Loop.

Section Generic.
Context {A : Arith}.
Local Open Scope num_scope.
Implicit Types (self : ClosedLoop) (mission : Mission) (t k : nat).

(** ** The plant *)

Lemma transition_frame action disturbance (s : Submarine) :
  vel_x (transition action disturbance s) = vel_x s
  /\ mass (transition action disturbance s) = mass s
  /\ drag (transition action disturbance s) = drag s
  /\ actuator_gain (transition action disturbance s) = actuator_gain s
  /\ dt (transition action disturbance s) = dt s.
Proof. repeat split. Qed.

Lemma transition_state action disturbance (s : Submarine) :
  pos_x (transition action disturbance s) = pos_x s + vel_x s * dt s
  /\ pos_y (transition action disturbance s) = pos_y s + vel_y s * dt s
  /\ vel_y (transition action disturbance s) =
       vel_y s
       + ((- drag s) * vel_y s + actuator_gain s * (action + disturbance))
         / mass s * dt s.
Proof. repeat split. Qed.

(** ** The controller *)

Lemma Control_controller_ok t mission observation_t (c : Control) r :
  reference mission !! t = Some r ->
  Control_controller t mission observation_t c =
    (Returned (Kp c * (r - observation_t)
               + Kd c * ((r - observation_t) - previous_error c)),
     {| Kp := Kp c; Kd := Kd c; previous_error := r - observation_t;
        current_error := Some (r - observation_t) |}).
Proof.
  intros Hr. unfold Control_controller, bind, getitem. rewrite Hr. reflexivity.
Qed.

Lemma Control_controller_out_of_range t mission observation_t (c : Control) :
  reference mission !! t = None ->
  Control_controller t mission observation_t c = (Raised IndexError, c).
Proof.
  intros Hr. unfold Control_controller, bind, getitem. rewrite Hr. reflexivity.
Qed.

(** ** One iteration *)

Lemma simulate_step_ok mission disturbances t positions actions self r d_t :
  (t < length positions)%nat ->
  (t < length actions)%nat ->
  reference mission !! t = Some r ->
  disturbances !! t = Some d_t ->
  let observation_t := get_depth (plant self) in
  let u := Kp (controller self) * (r - observation_t)
           + Kd (controller self)
             * ((r - observation_t) - previous_error (controller self)) in
  simulate_step mission disturbances t (positions, actions) self =
    (Returned (<[t := get_position (plant self)]> positions,
               <[t := u]> actions),
     {| plant := transition u d_t (plant self);
        controller :=
          {| Kp := Kp (controller self); Kd := Kd (controller self);
             previous_error := r - observation_t;
             current_error := Some (r - observation_t) |} |}).
Proof.
  intros Hp Ha Hr Hd observation_t u.
  unfold simulate_step, bind, plant_get, setitem, controller_call.
  apply Nat.ltb_lt in Hp as Hp'. rewrite Hp'. unfold ret at 1.
  rewrite (Control_controller_ok _ _ _ _ r Hr). cbn [plant controller].
  apply Nat.ltb_lt in Ha as Ha'. rewrite Ha'. unfold ret at 1.
  unfold getitem. rewrite list_lookup_insert_eq by exact Ha.
  unfold ret at 1. rewrite Hd. reflexivity.
Qed.

(** An iteration reads the disturbances at its own index only. *)
Lemma simulate_step_disturbance mission (d1 d2 : list num) t loc self :
  d1 !! t = d2 !! t ->
  simulate_step mission d1 t loc self = simulate_step mission d2 t loc self.
Proof.
  intros Hd. destruct loc as [positions actions].
  unfold simulate_step, getitem. rewrite Hd. reflexivity.
Qed.

(** An iteration assigns neither [vel_x] nor a parameter of the plant,
    however it ends. *)
Lemma simulate_step_vel_x mission disturbances t loc self :
  vel_x (plant (snd (simulate_step mission disturbances t loc self)))
  = vel_x (plant self).
Proof.
  destruct loc as [positions actions].
  unfold simulate_step, bind, plant_get, plant_do, setitem, getitem,
    controller_call, Control_controller, bind, getitem, ret, raise.
  repeat (case_match; simplify_eq; cbn in *; try reflexivity).
Qed.

(** ** The loop *)

(** With enough disturbances the first [k] iterations all return; the
    arrays keep their length, and entry [t] of each holds what iteration
    [t] stored: the position of the plant as the iteration found it, and
    the answer of the controller to the depth of that position. *)
Lemma simulate_loop_inv mission disturbances (s0 : ClosedLoop) k :
  (k <= length (reference mission))%nat ->
  (length (reference mission) <= length disturbances)%nat ->
  exists positions actions,
    simulate_loop mission disturbances k s0 =
      (Returned (positions, actions),
       snd (simulate_loop mission disturbances k s0))
    /\ length positions = length (reference mission)
    /\ length actions = length (reference mission)
    /\ (forall t, (t < k)%nat ->
          let s := snd (simulate_loop mission disturbances t s0) in
          positions !! t = Some (get_position (plant s))
          /\ exists u,
               actions !! t = Some u
               /\ fst (Control_controller t mission (get_depth (plant s))
                         (controller s)) = Returned u).
Proof.
  intros Hk HT. induction k as [|k IH].
  - exists (fst (zeros (length (reference mission)))),
           (snd (zeros (length (reference mission)))).
    repeat split; simpl; rewrite ?length_replicate; try reflexivity.
    all: intros; lia.
  - destruct IH as (positions & actions & Hrun & Hlp & Hla & Hent); [lia|].
    destruct (lookup_lt_is_Some_2 (reference mission) k) as [r Hr]; [lia|].
    destruct (lookup_lt_is_Some_2 disturbances k) as [d_t Hd]; [lia|].
    pose proof (simulate_step_ok mission disturbances k positions actions
                  (snd (simulate_loop mission disturbances k s0)) r d_t
                  ltac:(lia) ltac:(lia) Hr Hd) as Hstep.
    cbv zeta in Hstep.
    assert (HS : simulate_loop mission disturbances (Datatypes.S k) s0 =
                 simulate_step mission disturbances k (positions, actions)
                   (snd (simulate_loop mission disturbances k s0))).
    { unfold simulate_loop at 1. rewrite for_range_S.
      fold (simulate_loop mission disturbances k). rewrite Hrun at 1.
      reflexivity. }
    eexists _, _. split; [|split; [|split]].
    + rewrite HS at 2. rewrite HS, Hstep. reflexivity.
    + rewrite length_insert. exact Hlp.
    + rewrite length_insert. exact Hla.
    + intros t Ht s. destruct (decide (t = k)) as [->|Hne].
      * rewrite !list_lookup_insert_eq by lia. split; [reflexivity|].
        eexists. split; [reflexivity|].
        subst s. rewrite (Control_controller_ok _ _ _ _ r Hr). reflexivity.
      * rewrite !list_lookup_insert_ne by lia. apply Hent. lia.
Qed.

(** Iteration [k] of a run with enough disturbances, as a step on the
    state. *)
Lemma simulate_loop_step mission disturbances (s0 : ClosedLoop) k :
  (k < length (reference mission))%nat ->
  (length (reference mission) <= length disturbances)%nat ->
  let s := snd (simulate_loop mission disturbances k s0) in
  exists r d_t,
    reference mission !! k = Some r
    /\ disturbances !! k = Some d_t
    /\ snd (simulate_loop mission disturbances (Datatypes.S k) s0) =
       let e := r - get_depth (plant s) in
       let u := Kp (controller s) * e
                + Kd (controller s) * (e - previous_error (controller s)) in
       {| plant := transition u d_t (plant s);
          controller :=
            {| Kp := Kp (controller s); Kd := Kd (controller s);
               previous_error := e; current_error := Some e |} |}.
Proof.
  intros Hk HT s.
  destruct (simulate_loop_inv mission disturbances s0 k)
    as (positions & actions & Hrun & Hlp & Hla & _); [lia|lia|].
  destruct (lookup_lt_is_Some_2 (reference mission) k) as [r Hr]; [lia|].
  destruct (lookup_lt_is_Some_2 disturbances k) as [d_t Hd]; [lia|].
  exists r, d_t. split; [exact Hr|]. split; [exact Hd|].
  unfold simulate_loop at 1. rewrite for_range_S.
  fold (simulate_loop mission disturbances k). rewrite Hrun at 1.
  rewrite (simulate_step_ok mission disturbances k positions actions
             _ r d_t ltac:(lia) ltac:(lia) Hr Hd).
  reflexivity.
Qed.

(** [simulate] past its guard: the plant is reset and the loop runs. *)
Lemma run_unfold mission disturbances k self :
  (plant_do reset_state ;;; simulate_loop mission disturbances k) self =
  simulate_loop mission disturbances k
    {| plant := reset_state (plant self); controller := controller self |}.
Proof.
  unfold bind, plant_do.
  destruct (simulate_loop _ _ _ _) as [[loc|e] s']; reflexivity.
Qed.

Lemma state_at_unfold mission disturbances self t :
  state_at mission disturbances self t =
  snd (simulate_loop mission disturbances t
         {| plant := reset_state (plant self);
            controller := controller self |}).
Proof. unfold state_at. rewrite run_unfold. reflexivity. Qed.

Lemma simulate_guard_fails mission disturbances self :
  (length disturbances < length (reference mission))%nat ->
  simulate mission disturbances self =
    (Raised InsufficientDisturbanceLength, self).
Proof.
  intros Hlen. unfold simulate. apply Nat.ltb_lt in Hlen. rewrite Hlen.
  reflexivity.
Qed.

Lemma simulate_guard_passes mission disturbances self :
  (length (reference mission) <= length disturbances)%nat ->
  simulate mission disturbances self =
    match
      simulate_loop mission disturbances (length (reference mission))
        {| plant := reset_state (plant self); controller := controller self |}
    with
    | (Returned loc, s) => (Returned {| position := fst loc |}, s)
    | (Raised e, s) => (Raised e, s)
    end.
Proof.
  intros Hlen. unfold simulate. apply Nat.ltb_ge in Hlen. rewrite Hlen.
  unfold bind at 1. unfold plant_do. unfold bind, ret.
  destruct (simulate_loop _ _ _ _) as [[loc|e] s']; reflexivity.
Qed.

End Generic.

(** ** Exact arithmetic obeys the law *)

#[export] Instance exact_sub_zero : SubZero exact.
Proof. intros x. cbn in *. unfold Qcminus. ring. Qed.

Lemma exact_div_mul_comm (f m h : Qc) : (f / m * h = h * f / m)%Qc.
Proof. unfold Qcdiv. ring. Qed.

(** Canonical fractions are equal when their values are. *)
Ltac qc_eq :=
  repeat match goal with
         | |- @eq Qc _ _ => apply Qc_decomp; vm_compute; reflexivity
         | |- _ => f_equal
         end.

(** * The claims *)

Section Claims.
Context {A : Arith}.
Local Open Scope num_scope.
Implicit Types (self : ClosedLoop) (mission : Mission) (t k : nat).

(** C1: with fewer disturbances than reference values, [simulate] raises
    its one error (a [ValueError], which the specification names
    InsufficientDisturbanceLength) at the guard: nothing is returned, no
    iteration runs and nothing is assigned, not even by [reset_state], so
    the closed loop is left as it was. *)
Theorem simulate_insufficient_disturbances mission disturbances self :
  (length disturbances < length (reference mission))%nat ->
  simulate mission disturbances self =
    (Raised (ValueError
               "Disturbances must be at least as long as mission duration"),
     self)
  /\ (forall tr, fst (simulate mission disturbances self) <> Returned tr)
  /\ snd (simulate mission disturbances self) = self.
Proof.
  intros Hlen. rewrite (simulate_guard_fails _ _ _ Hlen).
  repeat split. intros tr. discriminate.
Qed.

(** C2, as amended: with fewer disturbances than reference values the
    failed call leaves the plant exactly as it was when [simulate] was
    called, because the guard comes before [reset_state]; the plant is in
    the reset state afterwards only if it was in it before. *)
Theorem simulate_failure_keeps_plant mission disturbances self :
  (length disturbances < length (reference mission))%nat ->
  plant (snd (simulate mission disturbances self)) = plant self
  /\ controller (snd (simulate mission disturbances self)) = controller self
  /\ (plant (snd (simulate mission disturbances self))
        = reset_state (plant self)
      <-> plant self = reset_state (plant self)).
Proof.
  intros Hlen. rewrite (simulate_guard_fails _ _ _ Hlen). cbn [snd].
  repeat split; intros H; exact H.
Qed.

(** C4: [transition] assigns neither [vel_x] nor [mass], [drag],
    [actuator_gain] or [dt]; the constructor and [reset_state] set [vel_x]
    to 1; so a closed loop whose plant has [vel_x = 1] has it in every
    iteration of a run and after the call, however the call ends. *)
Theorem vel_x_constant mission disturbances self :
  vel_x (plant self) = lit 1 ->
  (forall action disturbance (s : Submarine),
      vel_x (transition action disturbance s) = vel_x s
      /\ mass (transition action disturbance s) = mass s
      /\ drag (transition action disturbance s) = drag s
      /\ actuator_gain (transition action disturbance s) = actuator_gain s
      /\ dt (transition action disturbance s) = dt s)
  /\ vel_x Submarine_init = lit 1
  /\ (forall s : Submarine, vel_x (reset_state s) = lit 1)
  /\ (forall t, vel_x (plant (state_at mission disturbances self t)) = lit 1)
  /\ vel_x (plant (snd (simulate mission disturbances self))) = lit 1.
Proof.
  intros Hself.
  assert (Hloop : forall k,
             vel_x (plant (snd (simulate_loop mission disturbances k
                      {| plant := reset_state (plant self);
                         controller := controller self |}))) = lit 1).
  { intros k. unfold simulate_loop, for_range.
    apply (for_each_preserves (fun s => vel_x (plant s) = lit 1));
      [|reflexivity].
    intros t loc s Hs. rewrite simulate_step_vel_x. exact Hs. }
  split; [intros; apply transition_frame|].
  split; [reflexivity|]. split; [reflexivity|].
  split; [intros t; rewrite state_at_unfold; apply Hloop|].
  destruct (Nat.lt_ge_cases (length disturbances) (length (reference mission)))
    as [Hshort|Hlong].
  - rewrite (simulate_guard_fails _ _ _ Hshort). exact Hself.
  - rewrite (simulate_guard_passes _ _ _ Hlong).
    specialize (Hloop (length (reference mission))).
    destruct (simulate_loop _ _ _ _) as [[loc|e] s']; exact Hloop.
Qed.

(** C5: for an index [t] of the reference, [controller] returns
    [Kp * error + Kd * (error - previous_error)] with
    [error = reference[t] - observation] and leaves [error] in
    [previous_error]; a new controller has [previous_error = 0], so, where
    [x - 0 = x], its first derivative term is [Kd] times the first error
    itself. *)
Theorem controller_pd_law {HZ : SubZero A} t mission observation_t
    (c : Control) r :
  reference mission !! t = Some r ->
  let error := r - observation_t in
  fst (Control_controller t mission observation_t c)
    = Returned (Kp c * error + Kd c * (error - previous_error c))
  /\ previous_error (snd (Control_controller t mission observation_t c))
     = error
  /\ Kp (snd (Control_controller t mission observation_t c)) = Kp c
  /\ Kd (snd (Control_controller t mission observation_t c)) = Kd c
  /\ previous_error Control_init = lit 0
  /\ fst (Control_controller t mission observation_t Control_init)
     = Returned (lit (15 # 100) * error + lit (6 # 10) * error).
Proof.
  intros Hr error.
  rewrite !(Control_controller_ok _ _ _ _ r Hr). cbn [fst snd].
  repeat split. cbn [Kp Kd previous_error Control_init].
  fold error. rewrite sub_zero. reflexivity.
Qed.

(** C6: with at least [T = len(mission.reference)] disturbances,
    [simulate] returns a trajectory of length [T]; entry [t] is the
    position of the plant as iteration [t] finds it, the controller is
    called with the depth of that very entry, its answer is stored in
    [actions[t]], and only then is the plant advanced with that answer. *)
Theorem simulate_trajectory mission disturbances self :
  (length (reference mission) <= length disturbances)%nat ->
  exists tr acts,
    simulate mission disturbances self =
      (Returned tr,
       state_at mission disturbances self (length (reference mission)))
    /\ actions_at mission disturbances self (length (reference mission))
       = Returned acts
    /\ length (position tr) = length (reference mission)
    /\ forall t, (t < length (reference mission))%nat ->
         let s := state_at mission disturbances self t in
         exists p u d_t,
           position tr !! t = Some p
           /\ p = get_position (plant s)
           /\ fst (Control_controller t mission (snd p) (controller s))
              = Returned u
           /\ acts !! t = Some u
           /\ disturbances !! t = Some d_t
           /\ plant (state_at mission disturbances self (Datatypes.S t))
              = transition u d_t (plant s).
Proof.
  intros Hlen.
  set (s0 := {| plant := reset_state (plant self);
                controller := controller self |}).
  destruct (simulate_loop_inv mission disturbances s0
              (length (reference mission)))
    as (positions & actions & Hrun & Hlp & Hla & Hent); [lia|lia|].
  exists {| position := positions |}, actions.
  split; [|split; [|split]].
  - rewrite (simulate_guard_passes _ _ _ Hlen), state_at_unfold.
    fold s0. rewrite Hrun at 1. reflexivity.
  - unfold actions_at. rewrite run_unfold. fold s0. rewrite Hrun.
    reflexivity.
  - exact Hlp.
  - intros t Ht s. subst s. rewrite !state_at_unfold. fold s0.
    destruct (Hent t Ht) as (Hp & u & Hu & Hc).
    destruct (simulate_loop_step mission disturbances s0 t Ht Hlen)
      as (r & d_t & Hr & Hd & HS).
    exists (get_position (plant (snd (simulate_loop mission disturbances t s0)))),
           u, d_t.
    split; [exact Hp|]. split; [reflexivity|]. split; [exact Hc|].
    split; [exact Hu|]. split; [exact Hd|].
    rewrite HS. cbv zeta. cbn [plant].
    rewrite (Control_controller_ok _ _ _ _ r Hr) in Hc.
    cbn [fst] in Hc. injection Hc as <-. reflexivity.
Qed.

(** C10: two disturbance sequences of length at least [T] that agree on
    the indices below [T] give the same result of [simulate] from the
    same closed loop: the same trajectory and the same final state. *)
Theorem simulate_ignores_extra_disturbances mission (d1 d2 : list num) self :
  (length (reference mission) <= length d1)%nat ->
  (length (reference mission) <= length d2)%nat ->
  (forall t, (t < length (reference mission))%nat -> d1 !! t = d2 !! t) ->
  simulate mission d1 self = simulate mission d2 self.
Proof.
  intros H1 H2 Hagree.
  { rewrite (simulate_guard_passes _ _ _ H1), (simulate_guard_passes _ _ _ H2).
    unfold simulate_loop, for_range.
    rewrite (for_each_ext (simulate_step mission d1) (simulate_step mission d2));
      [reflexivity|].
    intros t Ht loc s. apply simulate_step_disturbance, Hagree.
    apply list_elem_of_In, in_seq in Ht. lia. }
Qed.

End Claims.

(** C3: [transition] adds [vel_x * dt] to [pos_x] and [vel_y * dt] to
    [pos_y], both with the velocities it finds, and only then adds
    [acc_y * dt] to [vel_y], where
    [acc_y = (-drag * vel_y + actuator_gain * (action + disturbance)) / mass];
    the new depth does not depend on the action or the disturbance of the
    step.  In exact arithmetic [acc_y * dt] is
    [dt * (-drag * vel_y + actuator_gain * (action + disturbance)) / mass]. *)
Theorem transition_explicit_euler :
  (forall (A : Arith) (s : Submarine) (action disturbance : num),
      pos_x (transition action disturbance s)
        = (pos_x s + vel_x s * dt s)%num
      /\ pos_y (transition action disturbance s)
         = (pos_y s + vel_y s * dt s)%num
      /\ vel_y (transition action disturbance s)
         = (vel_y s
            + ((- drag s) * vel_y s
               + actuator_gain s * (action + disturbance))
              / mass s * dt s)%num
      /\ (forall action' disturbance' : num,
             pos_y (transition action' disturbance' s)
             = pos_y (transition action disturbance s)))
  /\ (forall (s : @Submarine exact) (action disturbance : @num exact),
         vel_y (transition action disturbance s)
         = (vel_y s
            + dt s * ((- drag s) * vel_y s
                      + actuator_gain s * (action + disturbance))
              / mass s)%Qc).
Proof.
  split.
  - intros A s action disturbance.
    destruct (transition_state action disturbance s) as (Hx & Hy & Hv).
    repeat split; assumption.
  - intros s action disturbance.
    destruct (transition_state action disturbance s) as (_ & _ & ->).
    cbn. rewrite exact_div_mul_comm. reflexivity.
Qed.

(** C2 refuted as stated: a new closed loop runs a mission of three steps,
    which leaves the plant at along-track position 3; a second call with
    no disturbances fails and the plant is still at 3, not at (0, 0). *)
Lemma failed_simulate_does_not_reset :
  let mission := @mission_of exact [0; 0; 0]%Q in
  let used := snd (simulate mission (map lit [0; 0; 0]%Q) fresh) in
  (length (@nil Qc) < length (reference mission))%nat
  /\ fst (simulate mission [] used) = Raised InsufficientDisturbanceLength
  /\ get_position (plant (snd (simulate mission [] used)))
     = (Q2Qc 3, Q2Qc 0)
  /\ get_position (plant (snd (simulate mission [] used)))
     <> get_position (reset_state (plant used)).
Proof.
  cbv zeta. split; [cbn; lia|]. split; [reflexivity|].
  assert (E : get_position
                (plant (snd (simulate (@mission_of exact [0; 0; 0]%Q) []
                  (snd (simulate (@mission_of exact [0; 0; 0]%Q)
                          (map lit [0; 0; 0]%Q) fresh)))))
              = (Q2Qc 3, Q2Qc 0)).
  { vm_compute. qc_eq. }
  split; [exact E|]. rewrite E. intros H.
  apply (f_equal (fun p : Qc * Qc => this (fst p))) in H.
  vm_compute in H. discriminate.
Qed.

(** C7 at its failing input: reference [1, 1, 1], disturbances
    [0, 0, 0], a new closed loop.  The first call leaves
    [previous_error = 0.25] in the controller, which [simulate] never
    resets; the second call starts from it and its third position differs
    from that of the first call, with exact arithmetic (3/4 against 3/5)
    as with binary64 (0.75 against 0.6). *)
Theorem simulate_twice_differs :
  (let mission := @mission_of exact [1; 1; 1]%Q in
   let disturbances := map (@lit exact) [0; 0; 0]%Q in
   exists tr1 s1 tr2 s2,
     simulate mission disturbances fresh = (Returned tr1, s1)
     /\ simulate mission disturbances s1 = (Returned tr2, s2)
     /\ position tr1
        = [(Q2Qc 0, Q2Qc 0); (Q2Qc 1, Q2Qc 0); (Q2Qc 2, Q2Qc (3 # 4))]
     /\ position tr2
        = [(Q2Qc 0, Q2Qc 0); (Q2Qc 1, Q2Qc 0); (Q2Qc 2, Q2Qc (3 # 5))]
     /\ previous_error (controller s1) = Q2Qc (1 # 4)
     /\ tr1 <> tr2)
  /\ (let mission := @mission_of binary64 [1; 1; 1]%Q in
      let disturbances := map (@lit binary64) [0; 0; 0]%Q in
      exists tr1 s1 tr2 s2,
        simulate mission disturbances fresh = (Returned tr1, s1)
        /\ simulate mission disturbances s1 = (Returned tr2, s2)
        /\ position tr1
           = [(float_lit 0, float_lit 0); (float_lit 1, float_lit 0);
              (float_lit 2, float_lit (3 # 4))]
        /\ position tr2
           = [(float_lit 0, float_lit 0); (float_lit 1, float_lit 0);
              (float_lit 2, float_lit (3 # 5))]
        /\ previous_error (controller s1) = float_lit (1 # 4)
        /\ tr1 <> tr2).
Proof.
  split; cbv zeta.
  - eexists _, _, _, _.
    split; [vm_compute; reflexivity|].
    split; [vm_compute; reflexivity|].
    split; [cbn [position]; qc_eq|].
    split; [cbn [position]; qc_eq|].
    split; [cbn [controller previous_error]; qc_eq|].
    intros H.
    apply (f_equal (fun tr : @Trajectory exact =>
                      match position tr !! 2%nat with
                      | Some p => Some (this (snd p))
                      | None => None
                      end)) in H.
    vm_compute in H. discriminate.
  - eexists _, _, _, _.
    split; [vm_compute; reflexivity|].
    split; [vm_compute; reflexivity|].
    split; [vm_compute; reflexivity|].
    split; [vm_compute; reflexivity|].
    split; [vm_compute; reflexivity|].
    intros H.
    apply (f_equal (fun tr : @Trajectory binary64 =>
                      match position tr !! 2%nat with
                      | Some p => PrimFloat.ltb (snd p) (float_lit (7 # 10))
                      | None => false
                      end)) in H.
    vm_compute in H. discriminate.
Qed.

(** C8 refuted as stated: the constructor accepts a reference of length 2
    with limits of lengths 1 and 0, and it accepts three empty
    sequences. *)
Lemma mission_unequal_lengths_accepted :
  (exists m : @Mission exact,
      Mission_init (map lit [1; 2]%Q) (map lit [1]%Q) [] = Returned m
      /\ length (reference m) = 2%nat
      /\ length (cave_height m) = 1%nat
      /\ length (cave_depth m) = 0%nat)
  /\ (exists m : @Mission exact,
         Mission_init [] [] [] = Returned m
         /\ length (reference m) = 0%nat).
Proof.
  split; eexists; (split; [reflexivity|]); repeat split.
Qed.

(** C8, as amended: constructing a [Mission] never fails; whatever the
    lengths of the three sequences, equal or not, empty or not, they are
    stored as given.  [simulate] reads the reference only, so the two
    limits and their lengths have no effect on it. *)
Theorem mission_init_total :
  forall (A : Arith) (reference0 cave_height0 cave_depth0 : list num),
  exists m,
    Mission_init reference0 cave_height0 cave_depth0 = Returned m
    /\ reference m = reference0
    /\ cave_height m = cave_height0
    /\ cave_depth m = cave_depth0
    /\ forall (h d disturbances : list num) (self : ClosedLoop),
         simulate m disturbances self
         = simulate {| reference := reference0; cave_height := h;
                       cave_depth := d |} disturbances self.
Proof.
  intros A reference0 cave_height0 cave_depth0. eexists.
  split; [reflexivity|]. repeat split.
Qed.

(** C9: a new plant (mass 1, drag 0.1, gain 1, dt 1) and a new controller
    (Kp 0.15, Kd 0.6), reference [0, 0, 0] and disturbances [0, 0, 0]:
    the call returns the trajectory [(0,0), (1,0), (2,0)], the actions
    array ends as [0, 0, 0], the controller answers 0 in iteration 0, and
    the depth velocity is 0 before every iteration and after the last one;
    with exact arithmetic and with binary64. *)
Theorem zero_reference_scenario :
  (let mission := @mission_of exact [0; 0; 0]%Q in
   let disturbances := map (@lit exact) [0; 0; 0]%Q in
   (exists s,
       simulate mission disturbances fresh
       = (Returned {| position := [(lit 0, lit 0); (lit 1, lit 0);
                                   (lit 2, lit 0)] |}, s))
   /\ actions_at mission disturbances fresh 3 = Returned [lit 0; lit 0; lit 0]
   /\ action_at mission disturbances fresh 0 = Returned (lit 0)
   /\ forall t, (t <= 3)%nat ->
        vel_y (plant (state_at mission disturbances fresh t)) = lit 0)
  /\ (let mission := @mission_of binary64 [0; 0; 0]%Q in
      let disturbances := map (@lit binary64) [0; 0; 0]%Q in
      (exists s,
          simulate mission disturbances fresh
          = (Returned {| position := [(lit 0, lit 0); (lit 1, lit 0);
                                      (lit 2, lit 0)] |}, s))
      /\ actions_at mission disturbances fresh 3
         = Returned [lit 0; lit 0; lit 0]
      /\ action_at mission disturbances fresh 0 = Returned (lit 0)
      /\ forall t, (t <= 3)%nat ->
           vel_y (plant (state_at mission disturbances fresh t)) = lit 0).
Proof.
  split; cbv zeta.
  - split; [|split; [|split]].
    + eexists. vm_compute. qc_eq.
    + vm_compute. qc_eq.
    + vm_compute. qc_eq.
    + intros t Ht.
      do 4 (destruct t as [|t]; [vm_compute; qc_eq|]). lia.
  - split; [|split; [|split]].
    + eexists. vm_compute. reflexivity.
    + vm_compute. reflexivity.
    + vm_compute. reflexivity.
    + intros t Ht.
      do 4 (destruct t as [|t]; [vm_compute; reflexivity|]). lia.
Qed.

(** * Instances of the conditional theorems *)

Lemma simulate_insufficient_disturbances_witness :
  (length [@lit exact 0] < length (reference (@mission_of exact [0; 0; 0]%Q)))%nat
  /\ simulate (@mission_of exact [0; 0; 0]%Q) [@lit exact 0] fresh
     = (Raised (ValueError
                  "Disturbances must be at least as long as mission duration"),
        fresh).
Proof.
  split; [cbn; lia|].
  refine (proj1 (@simulate_insufficient_disturbances exact
                   (@mission_of exact [0; 0; 0]%Q) [lit 0] fresh _)).
  cbn; lia.
Defined.

Lemma simulate_failure_keeps_plant_witness :
  (length (@nil (@num exact)) < length (reference (@mission_of exact [0; 0; 0]%Q)))%nat
  /\ plant (snd (simulate (@mission_of exact [0; 0; 0]%Q) [] fresh))
     = plant fresh.
Proof.
  split; [cbn; lia|].
  refine (proj1 (@simulate_failure_keeps_plant exact
                   (@mission_of exact [0; 0; 0]%Q) [] fresh _)).
  cbn; lia.
Defined.

Lemma vel_x_constant_witness :
  vel_x (plant (@fresh exact)) = @lit exact 1
  /\ vel_x (plant (snd (simulate (@mission_of exact [1; 1; 1]%Q)
                          (map lit [0; 0; 0]%Q) fresh))) = lit 1.
Proof.
  split; [reflexivity|].
  refine (proj2 (proj2 (proj2 (proj2
            (@vel_x_constant exact (@mission_of exact [1; 1; 1]%Q)
               (map lit [0; 0; 0]%Q) fresh _))))).
  reflexivity.
Defined.

Lemma controller_pd_law_witness :
  reference (@mission_of exact [1; 1]%Q) !! 0%nat = Some (@lit exact 1)
  /\ fst (Control_controller 0 (@mission_of exact [1; 1]%Q) (lit 0)
            Control_init)
     = Returned (lit (15 # 100) * (lit 1 - lit 0)
                 + lit (6 # 10) * (lit 1 - lit 0))%num.
Proof.
  split; [reflexivity|].
  refine (proj2 (proj2 (proj2 (proj2 (proj2
            (@controller_pd_law exact exact_sub_zero 0
               (@mission_of exact [1; 1]%Q) (lit 0) Control_init (lit 1) _)))))).
  reflexivity.
Defined.

Lemma simulate_trajectory_witness :
  (length (reference (@mission_of exact [1; 1; 1]%Q))
   <= length (map (@lit exact) [0; 0; 0]%Q))%nat
  /\ exists tr,
       fst (simulate (@mission_of exact [1; 1; 1]%Q) (map lit [0; 0; 0]%Q)
              fresh) = Returned tr
       /\ length (position tr) = 3%nat.
Proof.
  split; [cbn; lia|].
  destruct (@simulate_trajectory exact (@mission_of exact [1; 1; 1]%Q)
              (map lit [0; 0; 0]%Q) fresh)
    as (tr & acts & Hrun & _ & Hlen & _); [cbn; lia|].
  exists tr. rewrite Hrun. split; [reflexivity|exact Hlen].
Defined.

Lemma simulate_ignores_extra_disturbances_witness :
  (length (reference (@mission_of exact [1; 1; 1]%Q))
   <= length (map (@lit exact) [0; 0; 0]%Q))%nat
  /\ (length (reference (@mission_of exact [1; 1; 1]%Q))
      <= length (map (@lit exact) [0; 0; 0; 5; 7]%Q))%nat
  /\ simulate (@mission_of exact [1; 1; 1]%Q) (map lit [0; 0; 0]%Q) fresh
     = simulate (@mission_of exact [1; 1; 1]%Q) (map lit [0; 0; 0; 5; 7]%Q)
         fresh.
Proof.
  split; [cbn; lia|]. split; [cbn; lia|].
  apply (@simulate_ignores_extra_disturbances exact (@mission_of exact [1; 1; 1]%Q)
           (map lit [0; 0; 0]%Q) (map lit [0; 0; 0; 5; 7]%Q) fresh).
  - cbn; lia.
  - cbn; lia.
  - intros t Ht. cbn in Ht.
    do 3 (destruct t as [|t]; [reflexivity|]). lia.
Defined.

(** * Further properties of the run *)

Section Runs.
Context {A : Arith}.
Local Open Scope num_scope.
Implicit Types (self : ClosedLoop) (mission : Mission) (t k : nat).

Lemma state_at_0 mission disturbances self :
  state_at mission disturbances self 0
  = {| plant := reset_state (plant self); controller := controller self |}.
Proof. rewrite state_at_unfold. reflexivity. Qed.

Lemma state_at_S mission disturbances self k r d_t :
  (k < length (reference mission))%nat ->
  (length (reference mission) <= length disturbances)%nat ->
  reference mission !! k = Some r ->
  disturbances !! k = Some d_t ->
  state_at mission disturbances self (Datatypes.S k)
  = advance r d_t (state_at mission disturbances self k).
Proof.
  intros Hk HT Hr Hd. rewrite !state_at_unfold.
  destruct (simulate_loop_step mission disturbances
              {| plant := reset_state (plant self);
                 controller := controller self |} k Hk HT)
    as (r' & d' & Hr' & Hd' & HS).
  rewrite HS. simplify_eq. reflexivity.
Qed.

(** A run with enough disturbances, entry by entry. *)
Lemma simulate_ok mission disturbances self :
  (length (reference mission) <= length disturbances)%nat ->
  exists tr,
    simulate mission disturbances self
    = (Returned tr,
       state_at mission disturbances self (length (reference mission)))
    /\ length (position tr) = length (reference mission)
    /\ forall t, (t < length (reference mission))%nat ->
         position tr !! t
         = Some (get_position (plant (state_at mission disturbances self t))).
Proof.
  intros Hlen.
  set (s0 := {| plant := reset_state (plant self);
                controller := controller self |}).
  destruct (simulate_loop_inv mission disturbances s0
              (length (reference mission)))
    as (positions & actions & Hrun & Hlp & _ & Hent); [lia|lia|].
  exists {| position := positions |}. split; [|split].
  - rewrite (simulate_guard_passes _ _ _ Hlen), state_at_unfold.
    fold s0. rewrite Hrun at 1. reflexivity.
  - exact Hlp.
  - intros t Ht. rewrite state_at_unfold. fold s0. apply (Hent t Ht).
Qed.

(** The position an iteration leaves does not depend on what the
    controller answered or on the disturbance. *)
Lemma advance_position r d_t self :
  get_position (plant (advance r d_t self))
  = (pos_x (plant self) + vel_x (plant self) * dt (plant self),
     pos_y (plant self) + vel_y (plant self) * dt (plant self)).
Proof. reflexivity. Qed.

(** ** What a call never assigns *)

Lemma simulate_step_parameters mission disturbances t loc self :
  parameters (snd (simulate_step mission disturbances t loc self))
  = parameters self.
Proof.
  destruct loc as [positions actions].
  unfold simulate_step, bind, plant_get, plant_do, setitem, getitem,
    controller_call, Control_controller, bind, getitem, ret, raise.
  repeat (case_match; simplify_eq; cbn in *; try reflexivity).
Qed.

Lemma simulate_parameters mission disturbances self :
  parameters (snd (simulate mission disturbances self)) = parameters self.
Proof.
  destruct (Nat.lt_ge_cases (length disturbances) (length (reference mission)))
    as [Hshort|Hlong].
  - rewrite (simulate_guard_fails _ _ _ Hshort). reflexivity.
  - rewrite (simulate_guard_passes _ _ _ Hlong).
    set (s0 := {| plant := reset_state (plant self);
                  controller := controller self |}).
    assert (Hloop : parameters
                      (snd (simulate_loop mission disturbances
                              (length (reference mission)) s0))
                    = parameters self).
    { unfold simulate_loop, for_range.
      apply (for_each_preserves (fun s => parameters s = parameters self));
        [|reflexivity].
      intros t loc s Hs. rewrite simulate_step_parameters. exact Hs. }
    destruct (simulate_loop _ _ _ _) as [[loc|e] s']; exact Hloop.
Qed.

(** X1: however a call of [simulate] ends, it leaves the mass, the drag,
    the actuator gain and the time step of the plant and both gains of
    the controller as they were. *)
Theorem simulate_keeps_parameters mission disturbances self :
  let after := snd (simulate mission disturbances self) in
  mass (plant after) = mass (plant self)
  /\ drag (plant after) = drag (plant self)
  /\ actuator_gain (plant after) = actuator_gain (plant self)
  /\ dt (plant after) = dt (plant self)
  /\ Kp (controller after) = Kp (controller self)
  /\ Kd (controller after) = Kd (controller self).
Proof.
  intros after.
  pose proof (simulate_parameters mission disturbances self) as H.
  fold after in H. unfold parameters in H. simplify_eq. repeat split; assumption.
Qed.

(** X2: [reset_state] after a call of [simulate], however it ended, gives
    the plant that [reset_state] would have given before the call; for a
    plant that started as a new [Submarine] this is a new [Submarine]
    again. *)
Theorem reset_after_simulate mission disturbances self :
  reset_state (plant (snd (simulate mission disturbances self)))
  = reset_state (plant self)
  /\ (reset_state (plant self) = Submarine_init ->
      reset_state (plant (snd (simulate mission disturbances self)))
      = Submarine_init).
Proof.
  assert (E : reset_state (plant (snd (simulate mission disturbances self)))
              = reset_state (plant self)).
  { pose proof (simulate_parameters mission disturbances self) as H.
    unfold parameters in H. simplify_eq.
    unfold reset_state, set_vel_y, set_vel_x, set_pos_y, set_pos_x. cbn.
    f_equal; assumption. }
  split; [exact E|]. intros H. rewrite E. exact H.
Qed.

(** ** What a run depends on *)

(** The state a run reaches after [k] iterations is decided by the start
    and by the first [k] reference values and disturbances. *)
Lemma state_at_agree mission1 mission2 (d1 d2 : list num) self k :
  (k <= length (reference mission1))%nat ->
  (k <= length (reference mission2))%nat ->
  (length (reference mission1) <= length d1)%nat ->
  (length (reference mission2) <= length d2)%nat ->
  (forall i, (i < k)%nat ->
     reference mission1 !! i = reference mission2 !! i
     /\ d1 !! i = d2 !! i) ->
  state_at mission1 d1 self k = state_at mission2 d2 self k.
Proof.
  intros Hk1 Hk2 HT1 HT2. induction k as [|k IH]; intros Hagree.
  - rewrite !state_at_0. reflexivity.
  - destruct (lookup_lt_is_Some_2 (reference mission1) k) as [r Hr]; [lia|].
    destruct (lookup_lt_is_Some_2 d1 k) as [d_t Hd]; [lia|].
    destruct (Hagree k) as [Er Ed]; [lia|].
    rewrite (state_at_S mission1 d1 self k r d_t) by (assumption || lia).
    rewrite (state_at_S mission2 d2 self k r d_t)
      by (assumption || lia || congruence).
    rewrite IH; [reflexivity|lia|lia|].
    intros i Hi. apply Hagree. lia.
Qed.

(** Two closed loops whose plants differ in position and velocity only
    and whose controllers agree on the gains and on [previous_error] are
    in the same state after every iteration but for [current_error]. *)
Lemma state_at_forgets mission disturbances self1 self2 k :
  (k <= length (reference mission))%nat ->
  (length (reference mission) <= length disturbances)%nat ->
  reset_state (plant self1) = reset_state (plant self2) ->
  Kp (controller self1) = Kp (controller self2) ->
  Kd (controller self1) = Kd (controller self2) ->
  previous_error (controller self1) = previous_error (controller self2) ->
  let s1 := state_at mission disturbances self1 k in
  let s2 := state_at mission disturbances self2 k in
  plant s1 = plant s2
  /\ Kp (controller s1) = Kp (controller s2)
  /\ Kd (controller s1) = Kd (controller s2)
  /\ previous_error (controller s1) = previous_error (controller s2).
Proof.
  intros Hk HT Hplant HKp HKd Hprev. induction k as [|k IH]; cbv zeta.
  - rewrite !state_at_0. cbn. auto.
  - destruct (lookup_lt_is_Some_2 (reference mission) k) as [r Hr]; [lia|].
    destruct (lookup_lt_is_Some_2 disturbances k) as [d_t Hd]; [lia|].
    rewrite !(state_at_S mission disturbances _ k r d_t)
      by (assumption || lia).
    destruct IH as (Ep & EKp & EKd & Eprev); [lia|].
    unfold advance. cbn [plant controller Kp Kd previous_error].
    rewrite Ep, EKp, EKd, Eprev. auto.
Qed.

(** X3: with enough disturbances, what [simulate] returns does not depend
    on the position or the velocity the plant has when the call is made,
    nor on [current_error]: two closed loops whose plants have the same
    parameters and whose controllers agree on [Kp], [Kd] and
    [previous_error] return the same trajectory. *)
Theorem simulate_forgets_plant_state mission disturbances self1 self2 :
  (length (reference mission) <= length disturbances)%nat ->
  reset_state (plant self1) = reset_state (plant self2) ->
  Kp (controller self1) = Kp (controller self2) ->
  Kd (controller self1) = Kd (controller self2) ->
  previous_error (controller self1) = previous_error (controller self2) ->
  fst (simulate mission disturbances self1)
  = fst (simulate mission disturbances self2).
Proof.
  intros HT Hplant HKp HKd Hprev.
  destruct (simulate_ok mission disturbances self1 HT)
    as ([pos1] & -> & Hl1 & Hent1).
  destruct (simulate_ok mission disturbances self2 HT)
    as ([pos2] & -> & Hl2 & Hent2).
  cbn [fst position] in *. do 2 f_equal.
  apply list_eq. intros t.
  destruct (decide (t < length (reference mission))%nat) as [Ht|Ht].
  - rewrite (Hent1 t Ht), (Hent2 t Ht).
    destruct (state_at_forgets mission disturbances self1 self2 t)
      as (E & _); [lia|assumption..|].
    rewrite E. reflexivity.
  - rewrite !lookup_ge_None_2 by lia. reflexivity.
Qed.

(** X4: a mission with an empty reference: whatever the disturbances,
    [simulate] returns the empty trajectory, resets the plant and leaves
    the controller untouched. *)
Theorem simulate_empty_mission mission disturbances self :
  reference mission = [] ->
  simulate mission disturbances self
  = (Returned {| position := [] |},
     {| plant := reset_state (plant self); controller := controller self |}).
Proof.
  intros Href. unfold simulate, simulate_loop. rewrite Href. reflexivity.
Qed.

(** X5: the first two entries of a trajectory are fixed by the time step
    alone: entry 0 is [(0, 0)] and entry 1, when there is one, is
    [(0 + 1 * dt, 0 + 0 * dt)], whatever the mission, the disturbances and
    the controller; an action shows in the depth two entries later. *)
Theorem trajectory_first_entries mission disturbances self :
  (1 <= length (reference mission))%nat ->
  (length (reference mission) <= length disturbances)%nat ->
  exists tr,
    fst (simulate mission disturbances self) = Returned tr
    /\ position tr !! 0%nat = Some (lit 0, lit 0)
    /\ ((2 <= length (reference mission))%nat ->
        position tr !! 1%nat
        = Some (lit 0 + lit 1 * dt (plant self),
                lit 0 + lit 0 * dt (plant self))).
Proof.
  intros H1 HT.
  destruct (simulate_ok mission disturbances self HT)
    as (tr & Hrun & _ & Hent).
  exists tr. rewrite Hrun. split; [reflexivity|]. split.
  - rewrite (Hent 0%nat) by lia. rewrite state_at_0. reflexivity.
  - intros H2. rewrite (Hent 1%nat) by lia.
    destruct (lookup_lt_is_Some_2 (reference mission) 0) as [r Hr]; [lia|].
    destruct (lookup_lt_is_Some_2 disturbances 0) as [d_t Hd]; [lia|].
    rewrite (state_at_S mission disturbances self 0 r d_t)
      by (assumption || lia).
    rewrite advance_position, state_at_0. reflexivity.
Qed.

(** X6: entry [t] of a trajectory is decided by the reference values and
    the disturbances at the indices [i] with [i + 1 < t]: two runs from
    the same closed loop whose inputs agree there have the same entry
    [t], even when the missions differ in length. *)
Theorem trajectory_is_causal mission1 mission2 (d1 d2 : list num) self t :
  (length (reference mission1) <= length d1)%nat ->
  (length (reference mission2) <= length d2)%nat ->
  (t < length (reference mission1))%nat ->
  (t < length (reference mission2))%nat ->
  (forall i, (Datatypes.S i < t)%nat ->
     reference mission1 !! i = reference mission2 !! i
     /\ d1 !! i = d2 !! i) ->
  exists tr1 tr2 p,
    fst (simulate mission1 d1 self) = Returned tr1
    /\ fst (simulate mission2 d2 self) = Returned tr2
    /\ position tr1 !! t = Some p
    /\ position tr2 !! t = Some p.
Proof.
  intros HT1 HT2 Ht1 Ht2 Hagree.
  destruct (simulate_ok mission1 d1 self HT1) as (tr1 & Hrun1 & _ & Hent1).
  destruct (simulate_ok mission2 d2 self HT2) as (tr2 & Hrun2 & _ & Hent2).
  exists tr1, tr2, (get_position (plant (state_at mission1 d1 self t))).
  rewrite Hrun1, Hrun2, (Hent1 t Ht1), (Hent2 t Ht2).
  split; [reflexivity|]. split; [reflexivity|]. split; [reflexivity|].
  assert (E : get_position (plant (state_at mission2 d2 self t))
              = get_position (plant (state_at mission1 d1 self t)));
    [|rewrite E; reflexivity].
  destruct t as [|t].
  - rewrite !state_at_0. reflexivity.
  - destruct (lookup_lt_is_Some_2 (reference mission1) t) as [r1 Hr1]; [lia|].
    destruct (lookup_lt_is_Some_2 d1 t) as [e1 Hd1]; [lia|].
    destruct (lookup_lt_is_Some_2 (reference mission2) t) as [r2 Hr2]; [lia|].
    destruct (lookup_lt_is_Some_2 d2 t) as [e2 Hd2]; [lia|].
    rewrite (state_at_S mission1 d1 self t r1 e1) by (assumption || lia).
    rewrite (state_at_S mission2 d2 self t r2 e2) by (assumption || lia).
    rewrite !advance_position.
    rewrite (state_at_agree mission2 mission1 d2 d1 self t);
      [reflexivity|lia|lia|lia|lia|].
    intros i Hi. destruct (Hagree i) as [Er Ed]; [lia|]. auto.
Qed.

(** X7: cutting the reference of a mission after [k] values cuts the
    trajectory after [k] entries and changes nothing before. *)
Theorem simulate_truncated_mission mission mission' disturbances self k :
  (length (reference mission) <= length disturbances)%nat ->
  reference mission' = take k (reference mission) ->
  exists tr tr',
    fst (simulate mission disturbances self) = Returned tr
    /\ fst (simulate mission' disturbances self) = Returned tr'
    /\ position tr' = take k (position tr).
Proof.
  intros HT Href.
  assert (HT' : (length (reference mission') <= length disturbances)%nat).
  { rewrite Href, length_take. lia. }
  destruct (simulate_ok mission disturbances self HT)
    as (tr & Hrun & Hl & Hent).
  destruct (simulate_ok mission' disturbances self HT')
    as (tr' & Hrun' & Hl' & Hent').
  exists tr, tr'. rewrite Hrun, Hrun'.
  split; [reflexivity|]. split; [reflexivity|].
  assert (HL : length (reference mission')
               = (k `min` length (reference mission))%nat).
  { rewrite Href. apply length_take. }
  apply list_eq. intros i.
  destruct (decide (i < length (reference mission'))%nat) as [Hi|Hi].
  - rewrite (Hent' i Hi), lookup_take_lt by lia. rewrite (Hent i) by lia.
    rewrite (state_at_agree mission' mission disturbances disturbances self i);
      [reflexivity|lia|lia|lia|lia|].
    intros j Hj. split; [|reflexivity].
    rewrite Href. apply lookup_take_lt. lia.
  - rewrite lookup_ge_None_2 by lia.
    symmetry. apply lookup_ge_None_2. rewrite length_take. lia.
Qed.

(** ** What a call leaves in the controller *)

(** X8: called with an index at or past the end of the reference,
    [controller] raises [IndexError] and assigns nothing: the controller,
    [previous_error] included, is as it was. *)
Theorem controller_index_error t mission observation_t (c : Control) :
  (length (reference mission) <= t)%nat ->
  Control_controller t mission observation_t c = (Raised IndexError, c).
Proof.
  intros Ht. apply Control_controller_out_of_range.
  apply lookup_ge_None_2. exact Ht.
Qed.

(** X9: after a run over a mission of [k + 1] steps the controller holds
    the last error, the last reference value minus the depth of the last
    entry of the trajectory, in [previous_error] and in [current_error];
    this is what the next call starts from. *)
Theorem simulate_leaves_last_error mission disturbances self k :
  length (reference mission) = Datatypes.S k ->
  (length (reference mission) <= length disturbances)%nat ->
  exists tr after p r,
    simulate mission disturbances self = (Returned tr, after)
    /\ position tr !! k = Some p
    /\ reference mission !! k = Some r
    /\ previous_error (controller after) = r - snd p
    /\ current_error (controller after) = Some (r - snd p).
Proof.
  intros HT Hlen.
  destruct (simulate_ok mission disturbances self Hlen)
    as (tr & Hrun & _ & Hent).
  destruct (lookup_lt_is_Some_2 (reference mission) k) as [r Hr]; [lia|].
  destruct (lookup_lt_is_Some_2 disturbances k) as [d_t Hd]; [lia|].
  exists tr, (state_at mission disturbances self (length (reference mission))),
    (get_position (plant (state_at mission disturbances self k))), r.
  split; [exact Hrun|]. split; [apply Hent; lia|]. split; [exact Hr|].
  rewrite HT.
  rewrite (state_at_S mission disturbances self k r d_t)
    by (assumption || lia).
  split; reflexivity.
Qed.

(** ** simulate_with_random_disturbances *)

(** X10: when the sampler returns as many samples as it is asked for,
    [simulate_with_random_disturbances] passes the guard of [simulate]:
    it returns a trajectory with one entry per reference value; when the
    sampler raises, the error goes through and the closed loop is as it
    was. *)
Theorem simulate_with_random_disturbances_length
    (normal : num -> num -> nat -> outcome (list num)) mission variance self :
  (forall loc scale n ds, normal loc scale n = Returned ds -> length ds = n) ->
  (forall ds,
      normal (lit 0) variance (length (reference mission)) = Returned ds ->
      exists tr,
        simulate_with_random_disturbances normal mission variance self
        = (Returned tr,
           state_at mission ds self (length (reference mission)))
        /\ length (position tr) = length (reference mission))
  /\ (forall e,
         normal (lit 0) variance (length (reference mission)) = Raised e ->
         simulate_with_random_disturbances normal mission variance self
         = (Raised e, self)).
Proof.
  intros Hnormal. split.
  - intros ds Hds. unfold simulate_with_random_disturbances. rewrite Hds.
    pose proof (Hnormal _ _ _ _ Hds) as Hlen.
    destruct (simulate_ok mission ds self) as (tr & Hrun & Hl & _); [lia|].
    exists tr. split; [exact Hrun|exact Hl].
  - intros e He. unfold simulate_with_random_disturbances. rewrite He.
    reflexivity.
Qed.

(** ** Mission.from_csv *)

Lemma column_ok (array : ndarray2) j :
  (j < ncols array)%nat ->
  column array j
  = Returned (map (fun i => cell array i j) (seq 0 (nrows array))).
Proof.
  intros Hj. unfold column. apply Nat.ltb_lt in Hj. rewrite Hj. reflexivity.
Qed.

Lemma column_entries (array : ndarray2) j i :
  (i < nrows array)%nat ->
  map (fun i => cell array i j) (seq 0 (nrows array)) !! i
  = Some (cell array i j).
Proof.
  intros Hi. rewrite list_lookup_fmap, lookup_seq_lt by exact Hi.
  reflexivity.
Qed.

(** X11: from an array with at least three columns [from_csv] builds a
    mission whose three sequences all have one entry per row: row [i]
    gives [reference[i]], [cave_height[i]] and [cave_depth[i]] from its
    columns 0, 1 and 2; further columns are ignored. *)
Theorem from_csv_equal_lengths (array : ndarray2) :
  (3 <= ncols array)%nat ->
  exists m,
    Mission_from_array array = Returned m
    /\ length (reference m) = nrows array
    /\ length (cave_height m) = nrows array
    /\ length (cave_depth m) = nrows array
    /\ forall i, (i < nrows array)%nat ->
         reference m !! i = Some (cell array i 0)
         /\ cave_height m !! i = Some (cell array i 1)
         /\ cave_depth m !! i = Some (cell array i 2).
Proof.
  intros Hc. unfold Mission_from_array.
  rewrite !column_ok by lia. eexists. split; [reflexivity|].
  cbn [reference cave_height cave_depth].
  rewrite !length_map, !length_seq.
  repeat split; apply column_entries; assumption.
Qed.

(** X12: from an array with fewer than three columns [from_csv] raises
    [IndexError] and builds no mission. *)
Theorem from_csv_missing_column (array : ndarray2) :
  (ncols array < 3)%nat ->
  Mission_from_array array = Raised IndexError.
Proof.
  intros Hc. unfold Mission_from_array, column.
  destruct (ncols array) as [|[|[|n]]]; try lia; reflexivity.
Qed.

(** X13: the script at the end of the source: a mission read from an
    array with at least three columns, run with sampled disturbances,
    gives a trajectory with one position per row of the array. *)
Theorem script_trajectory_length
    (normal : num -> num -> nat -> outcome (list num))
    (array : ndarray2) variance self ds :
  (3 <= ncols array)%nat ->
  (forall loc scale n ds, normal loc scale n = Returned ds -> length ds = n) ->
  normal (lit 0) variance (nrows array) = Returned ds ->
  exists m tr after,
    Mission_from_array array = Returned m
    /\ simulate_with_random_disturbances normal m variance self
       = (Returned tr, after)
    /\ length (position tr) = nrows array.
Proof.
  intros Hc Hnormal Hds.
  set (m := {| reference := map (fun i => cell array i 0) (seq 0 (nrows array));
               cave_height := map (fun i => cell array i 1)
                                (seq 0 (nrows array));
               cave_depth := map (fun i => cell array i 2)
                               (seq 0 (nrows array)) |}).
  assert (HT : length (reference m) = nrows array).
  { subst m. cbn [reference]. rewrite length_map, length_seq. reflexivity. }
  pose proof (Hnormal _ _ _ _ Hds) as Hlen.
  destruct (simulate_ok m ds self) as (tr & Hrun & Hl & _); [lia|].
  exists m, tr, (state_at m ds self (length (reference m))).
  split; [|split].
  - unfold Mission_from_array. rewrite !column_ok by lia. reflexivity.
  - unfold simulate_with_random_disturbances. rewrite HT, Hds, <- HT.
    exact Hrun.
  - rewrite Hl. exact HT.
Qed.

End Runs.

(** * Properties that need exact arithmetic *)

Section Exact.
Local Open Scope Qc_scope.
Implicit Types (self : @ClosedLoop exact) (mission : @Mission exact).




(** At rest: zero reference, zero disturbances and no previous error keep
    the depth, the depth velocity and the error at zero. *)
Lemma exact_rest mission (disturbances : list (@num exact)) self t :
  (t <= length (reference mission))%nat ->
  (length (reference mission) <= length disturbances)%nat ->
  (forall i r, reference mission !! i = Some r -> r = Q2Qc 0) ->
  (forall i x, (i < length (reference mission))%nat ->
     disturbances !! i = Some x -> x = Q2Qc 0) ->
  previous_error (controller self) = Q2Qc 0 ->
  let s := state_at mission disturbances self t in
  pos_y (plant s) = Q2Qc 0
  /\ vel_y (plant s) = Q2Qc 0
  /\ previous_error (controller s) = Q2Qc 0.
Proof.
  intros Ht HT Href Hdist Hprev. induction t as [|t IH]; cbv zeta.
  - rewrite state_at_0. cbn. repeat split. exact Hprev.
  - destruct (lookup_lt_is_Some_2 (reference mission) t) as [r Hr]; [lia|].
    destruct (lookup_lt_is_Some_2 disturbances t) as [d_t Hd]; [lia|].
    rewrite (state_at_S mission disturbances self t r d_t)
      by (assumption || lia).
    destruct IH as (Hy & Hv & Hp); [lia|].
    rewrite (Href t r Hr), (Hdist t d_t ltac:(lia) Hd).
    unfold advance, transition, get_depth. cbn.
    cbn in Hy, Hv, Hp. rewrite Hy, Hv, Hp.
    repeat split; unfold Qcdiv; ring.
Qed.

(** X15: in exact arithmetic, with a reference that is zero everywhere,
    disturbances that are zero over the mission and a controller whose
    [previous_error] is zero, the submarine never leaves depth zero,
    whatever the gains, the drag, the actuator gain and the time step
    are; the call ends with the depth velocity and [previous_error] at
    zero, so the next such call starts the same way. *)
Theorem simulate_stays_at_rest mission (disturbances : list (@num exact))
    self :
  (length (reference mission) <= length disturbances)%nat ->
  mass (plant self) <> Q2Qc 0 ->
  (forall i r, reference mission !! i = Some r -> r = Q2Qc 0) ->
  (forall i x, (i < length (reference mission))%nat ->
     disturbances !! i = Some x -> x = Q2Qc 0) ->
  previous_error (controller self) = Q2Qc 0 ->
  exists tr after,
    simulate mission disturbances self = (Returned tr, after)
    /\ (forall t p, position tr !! t = Some p -> snd p = Q2Qc 0)
    /\ vel_y (plant after) = Q2Qc 0
    /\ previous_error (controller after) = Q2Qc 0.
Proof.
  intros HT _ Href Hdist Hprev.
  destruct (simulate_ok mission disturbances self HT)
    as (tr & Hrun & Hl & Hent).
  exists tr, (state_at mission disturbances self (length (reference mission))).
  split; [exact Hrun|]. split; [|split].
  - intros t p Hp.
    assert (Ht : (t < length (reference mission))%nat).
    { rewrite <- Hl. eapply lookup_lt_Some. exact Hp. }
    pose proof (eq_trans (eq_sym Hp) (Hent t Ht)) as Ep.
    injection Ep as ->.
    apply (exact_rest mission disturbances self t); (assumption || lia).
  - apply (exact_rest mission disturbances self (length (reference mission)));
      (assumption || lia).
  - apply (exact_rest mission disturbances self (length (reference mission)));
      (assumption || lia).
Qed.



End Exact.

(** * Instances of the further properties *)

Lemma simulate_forgets_plant_state_witness :
  let mission := @mission_of exact [1; 1; 1]%Q in
  let disturbances := map (@lit exact) [0; 0; 0]%Q in
  let moved := {| plant := transition (lit 1) (lit 2) Submarine_init;
                  controller := Control_init |} in
  (length (reference mission) <= length disturbances)%nat
  /\ reset_state (plant fresh) = reset_state (plant moved)
  /\ fst (simulate mission disturbances fresh)
     = fst (simulate mission disturbances moved).
Proof.
  cbv zeta. split; [cbn; lia|]. split; [reflexivity|].
  apply (@simulate_forgets_plant_state exact (mission_of [1; 1; 1]%Q)
           (map lit [0; 0; 0]%Q) fresh
           {| plant := transition (lit 1) (lit 2) Submarine_init;
              controller := Control_init |}).
  - cbn; lia.
  - reflexivity.
  - reflexivity.
  - reflexivity.
  - reflexivity.
Defined.

Lemma simulate_empty_mission_witness :
  reference (@mission_of exact []) = []
  /\ simulate (@mission_of exact []) [lit 1] fresh
     = (Returned {| position := [] |},
        {| plant := reset_state (plant fresh);
           controller := controller fresh |}).
Proof.
  split; [reflexivity|].
  apply (@simulate_empty_mission exact). reflexivity.
Defined.

Lemma trajectory_first_entries_witness :
  let mission := @mission_of exact [1; 1; 1]%Q in
  let disturbances := map (@lit exact) [0; 0; 0]%Q in
  (1 <= length (reference mission))%nat
  /\ (length (reference mission) <= length disturbances)%nat
  /\ exists tr,
       fst (simulate mission disturbances fresh) = Returned tr
       /\ position tr !! 0%nat = Some (lit 0, lit 0).
Proof.
  cbv zeta. split; [cbn; lia|]. split; [cbn; lia|].
  destruct (@trajectory_first_entries exact (mission_of [1; 1; 1]%Q)
              (map lit [0; 0; 0]%Q) fresh)
    as (tr & Hrun & H0 & _); [cbn; lia|cbn; lia|].
  exists tr. split; [exact Hrun|exact H0].
Defined.

Lemma trajectory_is_causal_witness :
  let mission1 := @mission_of exact [1; 1; 1]%Q in
  let mission2 := @mission_of exact [1; 5; 7; 9]%Q in
  let d1 := map (@lit exact) [0; 0; 0]%Q in
  let d2 := map (@lit exact) [0; 3; 3; 3]%Q in
  (length (reference mission1) <= length d1)%nat
  /\ (length (reference mission2) <= length d2)%nat
  /\ exists tr1 tr2 p,
       fst (simulate mission1 d1 fresh) = Returned tr1
       /\ fst (simulate mission2 d2 fresh) = Returned tr2
       /\ position tr1 !! 2%nat = Some p
       /\ position tr2 !! 2%nat = Some p.
Proof.
  cbv zeta. split; [cbn; lia|]. split; [cbn; lia|].
  apply (@trajectory_is_causal exact (mission_of [1; 1; 1]%Q)
           (mission_of [1; 5; 7; 9]%Q) (map lit [0; 0; 0]%Q)
           (map lit [0; 3; 3; 3]%Q) fresh 2).
  - cbn; lia.
  - cbn; lia.
  - cbn; lia.
  - cbn; lia.
  - intros i Hi. destruct i as [|i]; [split; reflexivity|lia].
Defined.

Lemma simulate_truncated_mission_witness :
  let mission := @mission_of exact [1; 2; 3]%Q in
  let mission' := @mission_of exact [1; 2]%Q in
  let disturbances := map (@lit exact) [0; 0; 0]%Q in
  (length (reference mission) <= length disturbances)%nat
  /\ reference mission' = take 2 (reference mission)
  /\ exists tr tr',
       fst (simulate mission disturbances fresh) = Returned tr
       /\ fst (simulate mission' disturbances fresh) = Returned tr'
       /\ position tr' = take 2 (position tr).
Proof.
  cbv zeta. split; [cbn; lia|]. split; [reflexivity|].
  apply (@simulate_truncated_mission exact (mission_of [1; 2; 3]%Q)
           (mission_of [1; 2]%Q) (map lit [0; 0; 0]%Q) fresh 2).
  - cbn; lia.
  - reflexivity.
Defined.

Lemma controller_index_error_witness :
  (length (reference (@mission_of exact [1; 1]%Q)) <= 5)%nat
  /\ Control_controller 5 (@mission_of exact [1; 1]%Q) (lit 0) Control_init
     = (Raised IndexError, Control_init).
Proof.
  split; [cbn; lia|].
  apply (@controller_index_error exact). cbn; lia.
Defined.

Lemma simulate_leaves_last_error_witness :
  let mission := @mission_of exact [1; 1; 1]%Q in
  let disturbances := map (@lit exact) [0; 0; 0]%Q in
  length (reference mission) = 3%nat
  /\ (length (reference mission) <= length disturbances)%nat
  /\ exists tr after p r,
       simulate mission disturbances fresh = (Returned tr, after)
       /\ position tr !! 2%nat = Some p
       /\ reference mission !! 2%nat = Some r
       /\ previous_error (controller after) = (r - snd p)%num
       /\ current_error (controller after) = Some (r - snd p)%num.
Proof.
  cbv zeta. split; [reflexivity|]. split; [cbn; lia|].
  apply (@simulate_leaves_last_error exact (mission_of [1; 1; 1]%Q)
           (map lit [0; 0; 0]%Q) fresh 2).
  - reflexivity.
  - cbn; lia.
Defined.

Lemma simulate_with_random_disturbances_length_witness :
  let normal := fun (_ _ : @num exact) (n : nat) =>
                  Returned (replicate n (@lit exact 0)) in
  let mission := @mission_of exact [1; 1; 1]%Q in
  (forall loc scale n ds, normal loc scale n = Returned ds -> length ds = n)
  /\ exists tr,
       fst (simulate_with_random_disturbances normal mission (lit (1 # 2))
              fresh) = Returned tr
       /\ length (position tr) = 3%nat.
Proof.
  cbv zeta.
  assert (Hn : forall (loc scale : @num exact) n ds,
             Returned (replicate n (@lit exact 0)) = Returned ds ->
             length ds = n).
  { intros loc scale n ds [= <-]. apply length_replicate. }
  split; [exact Hn|].
  destruct (proj1 (@simulate_with_random_disturbances_length exact
                     (fun _ _ n => Returned (replicate n (lit 0)))
                     (mission_of [1; 1; 1]%Q) (lit (1 # 2)) fresh Hn)
                  (replicate 3 (lit 0)) eq_refl)
    as (tr & Hrun & Hl).
  exists tr. rewrite Hrun. split; [reflexivity|exact Hl].
Defined.

Lemma from_csv_equal_lengths_witness :
  let array := {| nrows := 2; ncols := 3;
                  cell := fun i j =>
                    @lit exact (inject_Z (Z.of_nat (i + j))) |} in
  (3 <= ncols array)%nat
  /\ exists m,
       Mission_from_array array = Returned m
       /\ length (reference m) = 2%nat
       /\ length (cave_height m) = 2%nat
       /\ length (cave_depth m) = 2%nat.
Proof.
  cbv zeta. split; [cbn; lia|].
  destruct (@from_csv_equal_lengths exact
              {| nrows := 2; ncols := 3;
                 cell := fun i j => lit (inject_Z (Z.of_nat (i + j))) |})
    as (m & Hm & H1 & H2 & H3 & _); [cbn; lia|].
  exists m. repeat split; assumption.
Defined.

Lemma from_csv_missing_column_witness :
  let array := {| nrows := 2; ncols := 2;
                  cell := fun i j =>
                    @lit exact (inject_Z (Z.of_nat (i + j))) |} in
  (ncols array < 3)%nat
  /\ Mission_from_array array = Raised IndexError.
Proof.
  cbv zeta. split; [cbn; lia|].
  apply (@from_csv_missing_column exact). cbn; lia.
Defined.

Lemma script_trajectory_length_witness :
  let normal := fun (_ _ : @num exact) (n : nat) =>
                  Returned (replicate n (@lit exact 0)) in
  let array := {| nrows := 2; ncols := 3;
                  cell := fun i j =>
                    @lit exact (inject_Z (Z.of_nat (i + j))) |} in
  (3 <= ncols array)%nat
  /\ exists m tr after,
       Mission_from_array array = Returned m
       /\ simulate_with_random_disturbances normal m (lit (1 # 2)) fresh
          = (Returned tr, after)
       /\ length (position tr) = 2%nat.
Proof.
  cbv zeta. split; [cbn; lia|].
  apply (@script_trajectory_length exact
           (fun _ _ n => Returned (replicate n (lit 0)))
           {| nrows := 2; ncols := 3;
              cell := fun i j => lit (inject_Z (Z.of_nat (i + j))) |}
           (lit (1 # 2)) fresh (replicate 2 (lit 0))).
  - cbn; lia.
  - intros loc scale n ds [= <-]. apply length_replicate.
  - reflexivity.
Defined.


Lemma simulate_stays_at_rest_witness :
  let mission := @mission_of exact [0; 0; 0]%Q in
  let disturbances := map (@lit exact) [0; 0; 0; 5]%Q in
  (length (reference mission) <= length disturbances)%nat
  /\ mass (plant (@fresh exact)) <> Q2Qc 0
  /\ exists tr after,
       simulate mission disturbances fresh = (Returned tr, after)
       /\ (forall t p, position tr !! t = Some p -> snd p = Q2Qc 0)
       /\ vel_y (plant after) = Q2Qc 0
       /\ previous_error (controller after) = Q2Qc 0.
Proof.
  cbv zeta. split; [cbn; lia|]. split; [exact Q_apart_0_1|].
  apply (@simulate_stays_at_rest (mission_of [0; 0; 0]%Q)
           (map lit [0; 0; 0; 5]%Q) fresh).
  - cbn; lia.
  - exact Q_apart_0_1.
  - intros i r.
    do 3 (destruct i as [|i]; [intros [= <-]; reflexivity|]).
    intros [=].
  - intros i x Hi.
    do 3 (destruct i as [|i]; [intros [= <-]; reflexivity|]).
    cbn in Hi. lia.
  - reflexivity.
Defined.

